(** * convert-to-static.py: pinning the axes of a variable font

    A shallow embedding of [libs/fonts/scripts/convert-to-static.py] and the
    properties of its axis-pinning policy, of its conversion function and of
    its command-line driver.

    The script is a thin wrapper around fontTools.  The font library, the
    file system and the clock are outside the script: they are a parameter
    of the development (the record [Host]), and every theorem about
    [convert_variable_to_static] and [main] holds for every host. *)

From Stdlib Require Import Ascii.
From stdpp Require Import base numbers strings pretty list option gmap.

Open Scope Z_scope.
Open Scope string_scope.

(** ** Python values the script handles *)

(** A Python number.  The four literal pins and the weight are [int]s; the
    default value of an axis is whatever the font library decoded from the
    [fvar] table, a value of the library's own numeric type ['float]. *)
Inductive number (float : Type) : Type :=
| PyInt (n : Z)
| PyFloat (x : float).
Arguments PyInt {float} n.
Arguments PyFloat {float} x.

(** One entry of [fvar.axes]: the two attributes the script reads. *)
Record Axis (float : Type) : Type := mkAxis {
  axisTag : string;
  defaultValue : number float;
}.
Arguments mkAxis {float} axisTag defaultValue.
Arguments axisTag {float} a.
Arguments defaultValue {float} a.

(** Python's [x in l] on a list of strings. *)
Definition py_in (x : string) (l : list string) : bool := bool_decide (x ∈ l).

(** ** The axis-pinning policy (lines 50-80 of the script) *)

Section AxisLimits.
Context {float : Type}.

(** Lines 77-80:
<<
      for axis in fvar.axes:
          if axis.axisTag == 'opsz':
              axis_limits['opsz'] = axis.defaultValue
              break
>> *)
Fixpoint pin_opsz (axes : list (Axis float))
    (axis_limits : gmap string (number float)) : gmap string (number float) :=
  match axes with
  | [] => axis_limits
  | axis :: rest =>
      if String.eqb (axisTag axis) "opsz"
      then <["opsz" := defaultValue axis]> axis_limits
      else pin_opsz rest axis_limits
  end.

(** Lines 52-80: the dictionary handed to the instancer, built from the
    axes of the font, the weight and the italic flag. *)
Definition build_axis_limits (axes : list (Axis float)) (weight : Z)
    (italic : bool) : gmap string (number float) :=
  let axis_tags := axisTag <$> axes in
  let axis_limits : gmap string (number float) := ∅ in
  let axis_limits :=
    if py_in "wght" axis_tags
    then <["wght" := PyInt weight]> axis_limits else axis_limits in
  let axis_limits :=
    if py_in "wdth" axis_tags
    then <["wdth" := PyInt 100]> axis_limits else axis_limits in
  let axis_limits :=
    if py_in "ital" axis_tags
    then <["ital" := PyInt (if italic then 1 else 0)]> axis_limits
    else axis_limits in
  let axis_limits :=
    if py_in "slnt" axis_tags
    then <["slnt" := PyInt (if italic then -12 else 0)]> axis_limits
    else axis_limits in
  let axis_limits :=
    if py_in "opsz" axis_tags
    then pin_opsz axes axis_limits else axis_limits in
  axis_limits.

(** *** The policy as the specification words it *)

(** The five registered tags the policy knows. *)
Definition pinned_tags : gset string :=
  {["wght"; "wdth"; "ital"; "slnt"; "opsz"]}.

(** The default value the font declares for the axis [tag]: that of the
    first descriptor carrying the tag. *)
Definition declared_default (axes : list (Axis float)) (tag : string)
    : option (number float) :=
  defaultValue <$> head (filter (λ a, axisTag a = tag) axes).

(** The table of section 4.1: the value an axis is pinned to. *)
Definition pinned_value_spec (axes : list (Axis float)) (weight : Z)
    (italic : bool) (tag : string) : option (number float) :=
  if decide (tag = "wght") then Some (PyInt weight)
  else if decide (tag = "wdth") then Some (PyInt 100)
  else if decide (tag = "ital") then Some (PyInt (if italic then 1 else 0))
  else if decide (tag = "slnt") then Some (PyInt (if italic then -12 else 0))
  else if decide (tag = "opsz") then declared_default axes "opsz"
  else None.

(** The set of tags of a font. *)
Definition tag_set (axes : list (Axis float)) : gset string :=
  list_to_set (axisTag <$> axes).

End AxisLimits.

(** ** Exceptions and outcomes *)

(** What a Python call can raise, as far as the script can tell the cases
    apart.  [except Exception] catches the instances of [Exception];
    [KeyboardInterrupt], [GeneratorExit] and [SystemExit] derive from
    [BaseException] only. *)
Inductive raised : Type :=
| PyException (cls msg : string)
    (** an instance of [Exception]: its class and its [str] *)
| InvalidLiteral (literal : string)
    (** the [ValueError] of [int(literal)], an instance of [Exception] *)
| PyBaseException (cls msg : string)
    (** an instance of [BaseException] that is not an [Exception] *)
| SystemExit (code : Z)
    (** raised by [sys.exit(code)] *).

(** [isinstance(e, Exception)]. *)
Definition is_Exception (e : raised) : bool :=
  match e with
  | PyException _ _ | InvalidLiteral _ => true
  | PyBaseException _ _ | SystemExit _ => false
  end.

Inductive outcome (A : Type) : Type :=
| Val (a : A)
| Raise (e : raised).
Arguments Val {A} a.
Arguments Raise {A} e.

(** ** The collaborators of the script *)

(** The Python runtime, the operating system and fontTools, as the script
    uses them.  [Env] is everything outside the script that a call can
    read or change: the file system, the clock, the state of the library.
    Opening a font, loading its [fvar] table, instancing and saving work on
    font data and may raise; the membership test ['fvar' in font] looks the
    tag up in the table directory and [close] releases the reader.  A host
    has fontTools: the import guard of lines 22-27 is not part of the
    model. *)
Record Host : Type := mkHost {
  float : Type;
  Font : Type;
  Env : Type;
  (** [TTFont(path)] *)
  TTFont : string → Env → outcome Font * Env;
  (** ['fvar' in font] *)
  contains_fvar : Font → bool;
  (** [font['fvar'].axes] *)
  getitem_fvar_axes : Font → Env → outcome (list (Axis float)) * Env;
  (** [instancer.instantiateVariableFont(font, limits, inplace=False,
      optimize=True, updateFontNames=True)] *)
  instantiateVariableFont :
    Font → gmap string (number float) → Env → outcome Font * Env;
  (** [font.save(path)] *)
  font_save : Font → string → Env → outcome () * Env;
  (** [font.close()] *)
  font_close : Font → Env → Env;
  (** [os.path.exists(path)] *)
  os_path_exists : string → Env → bool;
  (** [os.path.getsize(path)] *)
  os_path_getsize : string → Env → outcome Z;
  (** [int(s)] on a string: [None] stands for its [ValueError] *)
  py_int : string → option Z;
  (** The bytes of the file at a path, if there is one.  The script never
      reads them; they are what the statements about files talk about. *)
  file_bytes : string → Env → option string;
}.

(** ** What the script does, as seen from outside *)

Section Trace.
Context {float Font Env : Type}.

(** The calls the script makes on its collaborators, in order. *)
Inductive call : Type :=
| CallTTFont (path : string)
| CallGetFvar (font : Font)
| CallInstantiate (font : Font) (limits : gmap string (number float))
| CallSave (font : Font) (path : string)
| CallClose (font : Font)
| CallExists (path : string)
| CallGetsize (path : string).

(** A piece of a printed line: literal text, or a replacement field of an
    f-string with the value it formats. *)
Inductive fragment : Type :=
| Lit (s : string)
| FStr (s : string)
| FInt (n : Z)
| FIntComma (n : Z)   (** [{n:,}] *)
| FBool (b : bool)
| FDict (d : gmap string (number float))
| FExc (e : raised).

Record World : Type := mkWorld {
  env : Env;
  calls : list call;
  stdout : list (list fragment);
}.

End Trace.

Arguments call : clear implicits.
Arguments fragment : clear implicits.
Arguments World : clear implicits.
Arguments mkWorld {float Font Env} env calls stdout.

(** The trace types at the types of a host. *)
Abbreviation call_of H := (call (float H) (Font H)).
Abbreviation fragment_of H := (fragment (float H)).
Abbreviation world_of H := (World (float H) (Font H) (Env H)).

Section Script.
Context (H : Host).

(** Computations of the script: they change the world and return a value
    or raise. *)
Definition M (A : Type) : Type := world_of H → outcome A * world_of H.

Definition ret {A} (a : A) : M A := λ w, (Val a, w).
Definition raise {A} (e : raised) : M A := λ w, (Raise e, w).
Definition bind {A B} (m : M A) (k : A → M B) : M B :=
  λ w, match m w with
       | (Val a, w') => k a w'
       | (Raise e, w') => (Raise e, w')
       end.

(** [try: body except Exception as e: handler(e)] *)
Definition try_except_Exception {A} (body : M A) (handler : raised → M A)
    : M A :=
  λ w, match body w with
       | (Raise e, w') =>
           if is_Exception e then handler e w' else (Raise e, w')
       | r => r
       end.

Definition log (c : call_of H) (w : world_of H) : world_of H :=
  mkWorld (env w) (calls w ++ [c]) (stdout w).

(** A call that may raise and may change the environment. *)
Definition effect {A} (c : call_of H) (f : Env H → outcome A * Env H)
    : M A :=
  λ w, let w := log c w in
       let '(r, e) := f (env w) in
       (r, mkWorld e (calls w) (stdout w)).

Definition print (line : list (fragment_of H)) : M () :=
  λ w, (Val (), mkWorld (env w) (calls w) (stdout w ++ [line])).

Definition new_TTFont (path : string) : M (Font H) :=
  effect (CallTTFont path) (TTFont H path).
Definition fvar_axes (font : Font H) : M (list (Axis (float H))) :=
  effect (CallGetFvar font) (getitem_fvar_axes H font).
Definition instantiate (font : Font H)
    (limits : gmap string (number (float H))) : M (Font H) :=
  effect (CallInstantiate font limits) (instantiateVariableFont H font limits).
Definition save (font : Font H) (path : string) : M () :=
  effect (CallSave font path) (font_save H font path).
Definition close (font : Font H) : M () :=
  effect (CallClose font) (λ e, (Val (), font_close H font e)).
Definition exists_ (path : string) : M bool :=
  effect (CallExists path) (λ e, (Val (os_path_exists H path e), e)).
Definition getsize (path : string) : M Z :=
  effect (CallGetsize path) (λ e, (os_path_getsize H path e, e)).
Definition sys_exit {A} (code : Z) : M A := raise (SystemExit code).

End Script.

Arguments ret {H A} a.
Arguments raise {H A} e.
Arguments bind {H A B} m k.
Arguments try_except_Exception {H A} body handler.
Arguments print {H} line.
Arguments new_TTFont {H} path.
Arguments fvar_axes {H} font.
Arguments instantiate {H} font limits.
Arguments save {H} font path.
Arguments close {H} font.
Arguments exists_ {H} path.
Arguments getsize {H} path.
Arguments sys_exit {H A} code.

Notation "'let!' x ':=' m 'in' k" := (bind m (λ x, k))
  (at level 10, x name, m at level 100, k at level 200,
   format "'[v' 'let!'  x  ':='  m  'in' '/' k ']'").
Notation "'do!' m 'in' k" := (bind m (λ _, k))
  (at level 10, m at level 100, k at level 200,
   format "'[v' 'do!'  m  'in' '/' k ']'").

(** ** Strings of the command line *)

(** [str.lower] on one character.  Only the ASCII letters are mapped: no
    other character lowers to a letter of ['italic'], so the comparison of
    line 123 is the one Python makes. *)
Definition lower_ascii (c : Ascii.ascii) : Ascii.ascii :=
  let n := Ascii.nat_of_ascii c in
  if ((65 <=? n) && (n <=? 90))%nat then Ascii.ascii_of_nat (n + 32) else c.

(** [s.lower()] *)
Fixpoint lower (s : string) : string :=
  match s with
  | EmptyString => EmptyString
  | String c rest => String (lower_ascii c) (lower rest)
  end.

(** Two strings that are the same up to the case of their ASCII letters,
    compared character by character. *)
Fixpoint caseless_eq (s t : string) : bool :=
  match s, t with
  | EmptyString, EmptyString => true
  | String c s', String d t' =>
      bool_decide (lower_ascii c = lower_ascii d) && caseless_eq s' t'
  | _, _ => false
  end.

(** The italic flag as the specification words it: there is a fourth
    positional argument and it is the token [italic] up to case. *)
Definition italic_flag_spec (argv : list string) : bool :=
  match argv !! 4%nat with
  | Some a => caseless_eq a "italic"
  | None => false
  end.

(** ** The script *)

Section Program.
Context {H : Host}.

(** [sys.argv[i]] *)
Definition argv_get (argv : list string) (i : nat) : M H string :=
  match argv !! i with
  | Some a => ret a
  | None => raise (PyException "IndexError" "list index out of range")
  end.

(** [int(s)] *)
Definition int_ (s : string) : M H Z :=
  match py_int H s with
  | Some n => ret n
  | None => raise (InvalidLiteral s)
  end.

(** Lines 30-102. *)
Definition convert_variable_to_static (input_path output_path : string)
    (weight : Z) (italic : bool) : M H bool :=
  let! varfont := new_TTFont input_path in
  if negb (contains_fvar H varfont) then
    do! print [Lit "  Font is already static, copying as-is"] in
    do! save varfont output_path in
    do! close varfont in
    ret true
  else
    let! axes := fvar_axes varfont in
    let axis_limits := build_axis_limits axes weight italic in
    do! print [Lit "  Pinning axes: "; FDict axis_limits] in
    try_except_Exception
      (let! static_font := instantiate varfont axis_limits in
       do! save static_font output_path in
       do! close static_font in
       do! close varfont in
       ret true)
      (λ e,
       do! print [Lit "  Error creating static instance: "; FExc e] in
       do! close varfont in
       ret false).

(** Lines 107-117: the usage text. *)
Definition usage : list (list (fragment_of H)) :=
  [ [Lit "Usage: convert-to-static.py <input.ttf> <output.ttf> <weight> [italic]"];
    [Lit ""];
    [Lit "Arguments:"];
    [Lit "  input.ttf   - Path to input variable font"];
    [Lit "  output.ttf  - Path for output static font"];
    [Lit "  weight      - Font weight (100-900)"];
    [Lit "  italic      - Optional: 'italic' to create italic instance"];
    [Lit ""];
    [Lit "Examples:"];
    [Lit "  python3 convert-to-static.py Roboto[wght].ttf Roboto-Regular.ttf 400"];
    [Lit "  python3 convert-to-static.py Roboto[wght].ttf Roboto-Bold.ttf 700"] ].

Fixpoint print_all (lines : list (list (fragment_of H))) : M H () :=
  match lines with
  | [] => ret ()
  | l :: rest => do! print l in print_all rest
  end.

(** Line 123: [len(sys.argv) > 4 and sys.argv[4].lower() == 'italic'] *)
Definition italic_arg (argv : list string) : M H bool :=
  if (4 <? length argv)%nat then
    let! a := argv_get argv 4 in
    ret (String.eqb (lower a) "italic")
  else ret false.

(** Lines 105-140. *)
Definition main (argv : list string) : M H () :=
  if (length argv <? 4)%nat then
    do! print_all usage in
    sys_exit 1
  else
    let! input_file := argv_get argv 1 in
    let! output_file := argv_get argv 2 in
    let! a3 := argv_get argv 3 in
    let! weight := int_ a3 in
    let! italic := italic_arg argv in
    let! found := exists_ input_file in
    if negb found then
      do! print [Lit "Error: Input file not found: "; FStr input_file] in
      sys_exit 1
    else
      do! print [Lit "Converting: "; FStr input_file; Lit " -> ";
                 FStr output_file] in
      do! print [Lit "  Weight: "; FInt weight; Lit ", Italic: ";
                 FBool italic] in
      let! success :=
        convert_variable_to_static input_file output_file weight italic in
      if success then
        let! size := getsize output_file in
        do! print [Lit "  Created static font: "; FStr output_file; Lit " (";
                   FIntComma size; Lit " bytes)"] in
        sys_exit 0
      else
        do! print [Lit "  Failed to create static font"] in
        sys_exit 1.

(** How the process ends. *)
Inductive termination : Type :=
| Exit (code : Z)          (** [sys.exit(code)], or the end of the script *)
| Traceback (e : raised)   (** an exception nobody caught *).

(** Lines 143-144: the script run as a program. *)
Definition run_script (argv : list string) (w : world_of H)
    : termination * world_of H :=
  match main argv w with
  | (Val _, w') => (Exit 0, w')
  | (Raise (SystemExit code), w') => (Exit code, w')
  | (Raise e, w') => (Traceback e, w')
  end.


End Program.

(** ** A small host to run the script on

    A file system of byte strings and a clock.  A file whose bytes start
    with [VF] is a variable font with the axes [wght], [GRAD] and [opsz];
    any other file is a static font.  The instancer refuses a weight
    outside 1..1000.  With [stamp] set, saving refreshes a modification
    time in the bytes it writes, as a font library does that recomputes the
    [head] table on save; without it, saving writes the bytes read. *)
Module Sample.

Record sample_font : Type := mkFont {
  font_data : string;
  font_axes : option (list (Axis Z));
}.

Record sample_env : Type := mkEnv {
  fs : gmap string string;
  clock : Z;
  disk_full : bool;
}.

Definition axes_of_bytes (data : string) : option (list (Axis Z)) :=
  if String.prefix "VF" data
  then Some [mkAxis "wght" (PyFloat 400); mkAxis "GRAD" (PyFloat 0);
             mkAxis "opsz" (PyFloat 14)]
  else None.

Definition open_font (path : string) (e : sample_env)
    : outcome sample_font * sample_env :=
  match fs e !! path with
  | Some data => (Val (mkFont data (axes_of_bytes data)), e)
  | None => (Raise (PyException "FileNotFoundError" path), e)
  end.

Definition load_axes (font : sample_font) (e : sample_env)
    : outcome (list (Axis Z)) * sample_env :=
  match font_axes font with
  | Some axes => (Val axes, e)
  | None => (Raise (PyException "KeyError" "fvar"), e)
  end.

Definition instance_of (font : sample_font) (limits : gmap string (number Z))
    (e : sample_env) : outcome sample_font * sample_env :=
  match limits !! "wght" with
  | Some (PyInt n) =>
      if ((1 <=? n) && (n <=? 1000))%Z
      then (Val (mkFont ("SF" ++ font_data font) None), e)
      else (Raise (PyException "ValueError" "wght is out of range"), e)
  | _ => (Val (mkFont ("SF" ++ font_data font) None), e)
  end.

Definition write_font (stamp : bool) (font : sample_font) (path : string)
    (e : sample_env) : outcome () * sample_env :=
  if disk_full e
  then (Raise (PyException "OSError" "No space left on device"), e)
  else
    let bytes :=
      if stamp then font_data font ++ "@" ++ pretty (clock e)
      else font_data font in
    (Val (), mkEnv (<[path := bytes]> (fs e)) (clock e + 1) (disk_full e)).

Definition size_of (path : string) (e : sample_env) : outcome Z :=
  match fs e !! path with
  | Some data => Val (Z.of_nat (String.length data))
  | None => Raise (PyException "FileNotFoundError" path)
  end.

Fixpoint digits_value (s : string) (acc : Z) : option Z :=
  match s with
  | EmptyString => Some acc
  | String c rest =>
      let n := Ascii.nat_of_ascii c in
      if ((48 <=? n) && (n <=? 57))%nat
      then digits_value rest (10 * acc + Z.of_nat (n - 48))
      else None
  end.

(** Decimal digits with an optional minus sign. *)
Definition parse_int (s : string) : option Z :=
  match s with
  | EmptyString => None
  | String "-"%char EmptyString => None
  | String "-"%char rest => Z.opp <$> digits_value rest 0
  | _ => digits_value s 0
  end.

Definition host (stamp : bool) : Host := {|
  float := Z;
  Font := sample_font;
  Env := sample_env;
  TTFont := open_font;
  contains_fvar := λ font, bool_decide (is_Some (font_axes font));
  getitem_fvar_axes := load_axes;
  instantiateVariableFont := instance_of;
  font_save := write_font stamp;
  font_close := λ _ e, e;
  os_path_exists := λ path e, bool_decide (is_Some (fs e !! path));
  os_path_getsize := size_of;
  py_int := parse_int;
  file_bytes := λ path e, fs e !! path;
|}.

(** A disk with one static and one variable font. *)
Definition disk : gmap string string :=
  {[ "Static.ttf" := "OTTO static";
     "Variable.ttf" := "VF variable" ]}.

Definition script : string := "convert-to-static.py".

(** The variable font of the disk once opened, and its instance. *)
Definition variable_font : sample_font :=
  mkFont "VF variable" (axes_of_bytes "VF variable").
Definition instance_font : sample_font := mkFont "SFVF variable" None.

Definition start (stamp full : bool) : world_of (host stamp) :=
  mkWorld (mkEnv disk 1700000000 full) [] [].

End Sample.

(** ** Hosts that fail

    The sample host with one fault: a file that is no font, an [fvar] table
    that does not load, or an interrupt during instancing. *)
Module Faulty.

Inductive fault : Type :=
| NotAFont      (** [TTFont(path)] raises a [TTLibError] *)
| CorruptFvar   (** [font['fvar']] raises a [TTLibError] *)
| Interrupted   (** the instancer is interrupted from the keyboard *).

Definition faulty_host (ft : fault) : Host := {|
  float := Z;
  Font := Sample.sample_font;
  Env := Sample.sample_env;
  TTFont := λ path e,
    match ft with
    | NotAFont => (Raise (PyException "TTLibError" "Not a TrueType font"), e)
    | _ => Sample.open_font path e
    end;
  contains_fvar := λ font, bool_decide (is_Some (Sample.font_axes font));
  getitem_fvar_axes := λ font e,
    match ft with
    | CorruptFvar => (Raise (PyException "TTLibError" "bad fvar table"), e)
    | _ => Sample.load_axes font e
    end;
  instantiateVariableFont := λ font limits e,
    match ft with
    | Interrupted => (Raise (PyBaseException "KeyboardInterrupt" ""), e)
    | _ => Sample.instance_of font limits e
    end;
  font_save := Sample.write_font false;
  font_close := λ _ e, e;
  os_path_exists := λ path e, bool_decide (is_Some (Sample.fs e !! path));
  os_path_getsize := Sample.size_of;
  py_int := Sample.parse_int;
  file_bytes := λ path e, Sample.fs e !! path;
|}.

Definition faulty_start (ft : fault) : world_of (faulty_host ft) :=
  mkWorld (Sample.mkEnv Sample.disk 1700000000 false) [] [].

End Faulty.

(** ** Reading a trace *)

(** The calls of a trace that run the instancer. *)
Definition is_instantiate {float Font : Type} (c : call float Font) : bool :=
  match c with
  | CallInstantiate _ _ => true
  | _ => false
  end.

(** A host none of whose calls raises [SystemExit]: whatever ends the
    process with an exit code is then a [sys.exit] of the script. *)
Definition never_exits (H : Host) : Prop :=
  ∀ code,
    (∀ path e e', TTFont H path e ≠ (Raise (SystemExit code), e'))
    ∧ (∀ font e e',
         getitem_fvar_axes H font e ≠ (Raise (SystemExit code), e'))
    ∧ (∀ font limits e e',
         instantiateVariableFont H font limits e
         ≠ (Raise (SystemExit code), e'))
    ∧ (∀ font path e e',
         font_save H font path e ≠ (Raise (SystemExit code), e'))
    ∧ (∀ path e, os_path_getsize H path e ≠ Raise (SystemExit code)).

(** * Properties *)

(** ** The axis-pinning policy *)

Section AxisLimitsFacts.
Context {float : Type}.
Implicit Types (axes : list (Axis float)) (m : gmap string (number float)).

Lemma py_in_tag_set axes tag :
  py_in tag (axisTag <$> axes) = bool_decide (tag ∈ tag_set axes).
Proof.
  unfold py_in, tag_set. apply bool_decide_ext. by rewrite elem_of_list_to_set.
Qed.

(** The loop of lines 77-80 writes the key [opsz] only, with the default of
    the first [opsz] axis it meets. *)
Lemma pin_opsz_lookup axes m tag :
  pin_opsz axes m !! tag =
    if decide (tag = "opsz")
    then match declared_default axes "opsz" with
         | Some v => Some v
         | None => m !! tag
         end
    else m !! tag.
Proof.
  unfold declared_default.
  induction axes as [|a axes IH]; simpl.
  - by destruct (decide _).
  - destruct (String.eqb_spec (axisTag a) "opsz") as [Heq|Hne].
    + rewrite filter_cons_True by done. simpl.
      destruct (decide (tag = "opsz")) as [->|?]; by simplify_map_eq.
    + rewrite filter_cons_False by done. apply IH.
Qed.

Lemma declared_default_is_Some axes tag :
  tag ∈ tag_set axes → is_Some (declared_default axes tag).
Proof.
  unfold tag_set, declared_default.
  rewrite elem_of_list_to_set, list_elem_of_fmap.
  intros (a & -> & Hin).
  induction Hin as [a axes|a b axes Hin IH].
  - rewrite filter_cons_True by done. simpl. eauto.
  - destruct (decide (axisTag b = axisTag a)).
    + rewrite filter_cons_True by done. simpl. eauto.
    + rewrite filter_cons_False by done. done.
Qed.

Lemma lookup_cond_insert (b : bool) k v m tag :
  (if b then <[k:=v]> m else m) !! tag =
    if decide (tag = k) then (if b then Some v else m !! k) else m !! tag.
Proof. destruct b; case_decide; by simplify_map_eq. Qed.

(** The dictionary of the script is the table of the specification,
    restricted to the tags of the font. *)
Lemma build_axis_limits_lookup axes weight italic tag :
  build_axis_limits axes weight italic !! tag =
    if decide (tag ∈ tag_set axes)
    then pinned_value_spec axes weight italic tag else None.
Proof.
  unfold build_axis_limits, pinned_value_spec. cbv zeta.
  rewrite !py_in_tag_set.
  pose proof (declared_default_is_Some axes "opsz") as Hd.
  match goal with |- ?l !! _ = _ =>
    match l with
    | if ?b then pin_opsz _ ?m else _ =>
        transitivity (if b then pin_opsz axes m !! tag else m !! tag);
          [by destruct b|]
    end
  end.
  rewrite pin_opsz_lookup, !lookup_cond_insert, !lookup_empty.
  repeat (case_decide; simplify_eq); repeat case_bool_decide; try done.
  all: try (destruct Hd as [v ->]; done).
Qed.

Lemma elem_of_pinned_tags (tag : string) :
  tag ∈ pinned_tags
  ↔ tag = "wght" ∨ tag = "wdth" ∨ tag = "ital" ∨ tag = "slnt" ∨ tag = "opsz".
Proof.
  unfold pinned_tags. rewrite !elem_of_union, !elem_of_singleton. tauto.
Qed.

Lemma pinned_value_spec_is_Some axes weight italic tag :
  tag ∈ tag_set axes →
  is_Some (pinned_value_spec axes weight italic tag) ↔ tag ∈ pinned_tags.
Proof.
  intros Hin. rewrite elem_of_pinned_tags. unfold pinned_value_spec.
  pose proof (declared_default_is_Some axes "opsz") as Hd.
  repeat case_decide; simplify_eq;
    try (split; [intros _; tauto | intros _; eauto]).
  split; [by intros [? [=]] | tauto].
Qed.

Lemma build_axis_limits_dom axes weight italic tag :
  tag ∈ dom (build_axis_limits axes weight italic)
  ↔ tag ∈ tag_set axes ∧ tag ∈ pinned_tags.
Proof.
  rewrite elem_of_dom, build_axis_limits_lookup.
  case_decide as Hin.
  - rewrite pinned_value_spec_is_Some by done. tauto.
  - split; [by intros [? [=]] | tauto].
Qed.

(** C1.  For every list of axes, weight and italic flag, the keys of the axis
    limits map are the tags of the font that are among [wght], [wdth],
    [ital], [slnt] and [opsz]; [wght] is mapped to the weight as given,
    [wdth] to 100, [ital] to 1 or 0, [slnt] to -12 or 0, [opsz] to the
    default the font declares for it; a tag outside the five is absent, and
    a font with none of the five gets the empty map. *)
Theorem axis_limits_policy axes weight italic :
  let limits := build_axis_limits axes weight italic in
  let present (tag : string) (v : option (number float)) :=
    if decide (tag ∈ tag_set axes) then v else None in
  dom limits = tag_set axes ∩ pinned_tags
  ∧ limits !! "wght" = present "wght" (Some (PyInt weight))
  ∧ limits !! "wdth" = present "wdth" (Some (PyInt 100))
  ∧ limits !! "ital" = present "ital" (Some (PyInt (if italic then 1 else 0)))
  ∧ limits !! "slnt" = present "slnt" (Some (PyInt (if italic then -12 else 0)))
  ∧ limits !! "opsz" = present "opsz" (declared_default axes "opsz")
  ∧ (∀ tag, tag ∉ pinned_tags → limits !! tag = None)
  ∧ (tag_set axes ∩ pinned_tags = ∅ → limits = ∅).
Proof.
  intros limits present. subst limits present. cbv beta.
  assert (dom (build_axis_limits axes weight italic)
          = tag_set axes ∩ pinned_tags) as Hdom.
  { apply set_eq. intros tag.
    by rewrite build_axis_limits_dom, elem_of_intersection. }
  split; [done|].
  repeat split; try (rewrite build_axis_limits_lookup; done).
  - intros tag Hout. apply not_elem_of_dom.
    rewrite Hdom, elem_of_intersection. tauto.
  - intros Hnone. apply dom_empty_iff_L. by rewrite Hdom.
Qed.

(** C2, as the code has it.  The axis limits map has an entry for a tag
    exactly when the tag is an axis of the font and one of the five tags
    the policy pins: no tag is invented, and the axes the policy does not
    know are left out. *)
Theorem axis_limits_keys axes weight italic tag :
  is_Some (build_axis_limits axes weight italic !! tag)
  ↔ tag ∈ tag_set axes ∧ tag ∈ pinned_tags.
Proof. rewrite <- elem_of_dom. apply build_axis_limits_dom. Qed.

End AxisLimitsFacts.

(** The examples of section 8 of the specification. *)
Example limits_wght_ital :
  build_axis_limits
    [mkAxis "wght" (PyFloat 400); mkAxis "ital" (PyFloat 0)] 700 true
  = ({[ "wght" := PyInt 700; "ital" := PyInt 1 ]} : gmap string (number Z)).
Proof. by vm_compute. Qed.

Example limits_wght_wdth_slnt :
  build_axis_limits
    [mkAxis "wght" (PyFloat 400); mkAxis "wdth" (PyFloat 100);
     mkAxis "slnt" (PyFloat 0)] 400 false
  = ({[ "wght" := PyInt 400; "wdth" := PyInt 100; "slnt" := PyInt 0 ]}
     : gmap string (number Z)).
Proof. by vm_compute. Qed.

Example limits_opsz :
  build_axis_limits [mkAxis "opsz" (PyFloat 14)] 123 true
  = ({[ "opsz" := PyFloat 14 ]} : gmap string (number Z)).
Proof. by vm_compute. Qed.

(** A font whose only axis is [GRAD]: nothing is pinned. *)
Lemma axis_limits_policy_witness :
  build_axis_limits [mkAxis "GRAD" (PyFloat 0)] 400 false
    = (∅ : gmap string (number Z))
  ∧ build_axis_limits [mkAxis "GRAD" (PyFloat 0)] 400 false !! "GRAD"
    = (None : option (number Z)).
Proof.
  destruct (axis_limits_policy [mkAxis "GRAD" (PyFloat (0 : Z))] 400 false)
    as (_ & _ & _ & _ & _ & _ & Hout & Hnone).
  split.
  - apply Hnone. by vm_compute.
  - apply Hout. rewrite elem_of_pinned_tags. by intros [|[|[|[|]]]].
Defined.

(** C2, as stated, fails: the [GRAD] axis of a font is an axis of the font
    and has no entry in the map. *)
Lemma unpinned_axis_omitted :
  let axes : list (Axis Z) :=
    [mkAxis "wght" (PyFloat 400); mkAxis "GRAD" (PyFloat 0)] in
  "GRAD" ∈ tag_set axes
  ∧ ¬ is_Some (build_axis_limits axes 400 false !! "GRAD").
Proof.
  split.
  - unfold tag_set. rewrite elem_of_list_to_set. simpl.
    rewrite !elem_of_cons. tauto.
  - intros [v Hv]. by vm_compute in Hv.
Qed.

(** ** The italic flag *)

Lemma lower_eq_caseless s t : lower s = lower t ↔ caseless_eq s t = true.
Proof.
  revert t. induction s as [|c s IH]; intros [|d t]; simpl; try done.
  rewrite andb_true_iff, bool_decide_eq_true, <- IH. split.
  - by intros [= ? ?].
  - by intros [-> ->].
Qed.

Lemma lower_eqb_italic a :
  String.eqb (lower a) "italic" = caseless_eq a "italic".
Proof.
  apply eq_true_iff_eq. by rewrite String.eqb_eq, <- lower_eq_caseless.
Qed.

(** The letters of [italic], each in its two cases: what [str.lower] sends
    to the letter is the letter and its capital, nothing else. *)
Ltac either_case :=
  let c := fresh "c" in
  let Hc := fresh "Hc" in
  intros c; split;
  [ destruct c as [[] [] [] [] [] [] [] []]; intros Hc;
    try (by vm_compute in Hc); auto
  | intros [->| ->]; reflexivity ].

Lemma lower_ascii_i :
  ∀ c, lower_ascii c = lower_ascii "i" ↔ c = "i"%char ∨ c = "I"%char.
Proof. either_case. Qed.

Lemma lower_ascii_t :
  ∀ c, lower_ascii c = lower_ascii "t" ↔ c = "t"%char ∨ c = "T"%char.
Proof. either_case. Qed.

Lemma lower_ascii_a :
  ∀ c, lower_ascii c = lower_ascii "a" ↔ c = "a"%char ∨ c = "A"%char.
Proof. either_case. Qed.

Lemma lower_ascii_l :
  ∀ c, lower_ascii c = lower_ascii "l" ↔ c = "l"%char ∨ c = "L"%char.
Proof. either_case. Qed.

Lemma lower_ascii_c :
  ∀ c, lower_ascii c = lower_ascii "c" ↔ c = "c"%char ∨ c = "C"%char.
Proof. either_case. Qed.

(** The strings equal to [italic] up to case, spelled out. *)
Lemma caseless_italic_spelled a :
  caseless_eq a "italic" = true
  ↔ ∃ c1 c2 c3 c4 c5 c6,
      a = String c1 (String c2 (String c3 (String c4
            (String c5 (String c6 EmptyString)))))
      ∧ (c1 = "i" ∨ c1 = "I")%char ∧ (c2 = "t" ∨ c2 = "T")%char
      ∧ (c3 = "a" ∨ c3 = "A")%char ∧ (c4 = "l" ∨ c4 = "L")%char
      ∧ (c5 = "i" ∨ c5 = "I")%char ∧ (c6 = "c" ∨ c6 = "C")%char.
Proof.
  split.
  - destruct a as [|c1 [|c2 [|c3 [|c4 [|c5 [|c6 [|c7 rest]]]]]]]; simpl;
      rewrite ?andb_true_iff, ?bool_decide_eq_true; intros Hall;
      repeat match goal with Hand : _ ∧ _ |- _ => destruct Hand end;
      try discriminate.
    exists c1, c2, c3, c4, c5, c6. split; [done|].
    rewrite <- !lower_ascii_i, <- lower_ascii_t, <- lower_ascii_a,
      <- lower_ascii_l, <- lower_ascii_c.
    tauto.
  - intros (c1 & c2 & c3 & c4 & c5 & c6 & -> & H1 & H2 & H3 & H4 & H5 & H6).
    simpl. rewrite !andb_true_iff, !bool_decide_eq_true.
    rewrite !lower_ascii_i, lower_ascii_t, lower_ascii_a, lower_ascii_l,
      lower_ascii_c.
    tauto.
Qed.

Example italic_upper : italic_flag_spec ["p"; "i"; "o"; "400"; "ITALIC"] = true.
Proof. reflexivity. Qed.

Example italic_mixed : italic_flag_spec ["p"; "i"; "o"; "400"; "Italic"] = true.
Proof. reflexivity. Qed.

Example italic_other : italic_flag_spec ["p"; "i"; "o"; "400"; "bold"] = false.
Proof. reflexivity. Qed.

Example italic_absent : italic_flag_spec ["p"; "i"; "o"; "400"] = false.
Proof. reflexivity. Qed.

(** ** Running the script *)

Lemma effect_run {H : Host} {A} (c : call_of H)
    (op : Env H → outcome A * Env H) (w : world_of H) :
  effect H c op w
  = ((op (env w)).1, mkWorld (op (env w)).2 (calls w ++ [c]) (stdout w)).
Proof. unfold effect, log. simpl. by destruct (op (env w)). Qed.

Lemma bind_Val {H : Host} {A B} (m : M H A) (k : A → M H B)
    (w : world_of H) a w' :
  m w = (Val a, w') → bind m k w = k a w'.
Proof. intros Hm. unfold bind. by rewrite Hm. Qed.

Ltac run_step :=
  unfold new_TTFont, fvar_axes, instantiate, save, close, exists_, getsize,
    print, ret, raise, sys_exit;
  rewrite ?effect_run; simpl.

Section RunFacts.
Context {H : Host}.
Implicit Types (w : world_of H) (f : Font H).

Lemma print_all_run (lines : list (list (fragment_of H))) w :
  print_all lines w = (Val (), mkWorld (env w) (calls w) (stdout w ++ lines)).
Proof.
  revert w. induction lines as [|l lines IH]; intros w; simpl.
  - unfold ret. rewrite app_nil_r. by destruct w.
  - unfold bind, print. rewrite IH. simpl. by rewrite <- app_assoc.
Qed.

Lemma argv_get_Some (argv : list string) i a w :
  argv !! i = Some a → argv_get (H:=H) argv i w = (Val a, w).
Proof. intros Hi. unfold argv_get. by rewrite Hi. Qed.

Lemma italic_arg_run argv w :
  italic_arg argv w = (Val (italic_flag_spec argv), w).
Proof.
  unfold italic_arg, italic_flag_spec.
  destruct (Nat.ltb_spec 4 (length argv)) as [Hlt|Hge].
  - destruct (lookup_lt_is_Some_2 argv 4%nat Hlt) as [a Ha].
    rewrite (bind_Val _ _ w a w) by (apply argv_get_Some; done).
    rewrite Ha. unfold ret. by rewrite lower_eqb_italic.
  - rewrite (lookup_ge_None_2 argv 4%nat) by lia. done.
Qed.

(** C8.  The expression of line 123 raises nothing and changes nothing, and
    its value is true exactly when there is a fourth positional argument
    and it is the token [italic] up to the case of its letters: six
    characters, an [i] or [I], a [t] or [T], an [a] or [A], an [l] or [L],
    an [i] or [I], a [c] or [C].  Any other value, or none, gives false. *)
Theorem italic_flag_correct (argv : list string) w :
  (∃ italic, italic_arg argv w = (Val italic, w))
  ∧ (italic_arg argv w = (Val true, w)
     ↔ ∃ c1 c2 c3 c4 c5 c6,
         argv !! 4%nat =
           Some (String c1 (String c2 (String c3 (String c4
                   (String c5 (String c6 EmptyString))))))
         ∧ (c1 = "i" ∨ c1 = "I")%char ∧ (c2 = "t" ∨ c2 = "T")%char
         ∧ (c3 = "a" ∨ c3 = "A")%char ∧ (c4 = "l" ∨ c4 = "L")%char
         ∧ (c5 = "i" ∨ c5 = "I")%char ∧ (c6 = "c" ∨ c6 = "C")%char)
  ∧ italic_arg argv w = (Val (italic_flag_spec argv), w)
  ∧ (italic_flag_spec argv = true
     ↔ ∃ a, argv !! 4%nat = Some a ∧ lower a = lower "italic").
Proof.
  split; [rewrite italic_arg_run; eauto|].
  split.
  { rewrite italic_arg_run. unfold italic_flag_spec.
    destruct (argv !! 4%nat) as [a|].
    - split.
      + intros [= Ha]. apply caseless_italic_spelled in Ha.
        destruct Ha as (c1 & c2 & c3 & c4 & c5 & c6 & -> & Hc).
        exists c1, c2, c3, c4, c5, c6. tauto.
      + intros (c1 & c2 & c3 & c4 & c5 & c6 & [= ->] & Hc).
        f_equal. f_equal. apply caseless_italic_spelled. eauto 10.
    - split; [done|]. by intros (? & ? & ? & ? & ? & ? & [=] & _). }
  split; [apply italic_arg_run|].
  unfold italic_flag_spec. destruct (argv !! 4%nat) as [a|].
  - rewrite <- lower_eq_caseless. split; [eauto|]. by intros (? & [= <-] & ?).
  - split; [done|]. by intros (? & [=] & _).
Qed.

(** *** The conversion function, path by path *)

(** The copy-through path. *)
Lemma convert_static in_ out weight italic w f e1 e2 :
  TTFont H in_ (env w) = (Val f, e1) →
  contains_fvar H f = false →
  font_save H f out e1 = (Val (), e2) →
  convert_variable_to_static in_ out weight italic w =
    (Val true,
     mkWorld (font_close H f e2)
       (calls w ++ [CallTTFont in_; CallSave f out; CallClose f])
       (stdout w ++ [[Lit "  Font is already static, copying as-is"]])).
Proof.
  intros Hopen Hfvar Hsave.
  unfold convert_variable_to_static, bind. run_step. rewrite Hopen. simpl.
  rewrite Hfvar. simpl. run_step. rewrite Hsave. simpl.
  by rewrite <- !app_assoc.
Qed.

(** The copy-through path when saving raises: nothing catches it. *)
Lemma convert_static_save_raises in_ out weight italic w f e1 e e2 :
  TTFont H in_ (env w) = (Val f, e1) →
  contains_fvar H f = false →
  font_save H f out e1 = (Raise e, e2) →
  convert_variable_to_static in_ out weight italic w =
    (Raise e,
     mkWorld e2 (calls w ++ [CallTTFont in_; CallSave f out])
       (stdout w ++ [[Lit "  Font is already static, copying as-is"]])).
Proof.
  intros Hopen Hfvar Hsave.
  unfold convert_variable_to_static, bind. run_step. rewrite Hopen. simpl.
  rewrite Hfvar. simpl. run_step. rewrite Hsave. simpl.
  by rewrite <- !app_assoc.
Qed.

(** The instancer raises an [Exception]. *)
Lemma convert_instancing_raises in_ out weight italic w f e1 axes e2 e e3 :
  TTFont H in_ (env w) = (Val f, e1) →
  contains_fvar H f = true →
  getitem_fvar_axes H f e1 = (Val axes, e2) →
  instantiateVariableFont H f (build_axis_limits axes weight italic) e2
    = (Raise e, e3) →
  is_Exception e = true →
  convert_variable_to_static in_ out weight italic w =
    (Val false,
     mkWorld (font_close H f e3)
       (calls w ++ [CallTTFont in_; CallGetFvar f;
                    CallInstantiate f (build_axis_limits axes weight italic);
                    CallClose f])
       (stdout w ++
          [[Lit "  Pinning axes: ";
            FDict (build_axis_limits axes weight italic)];
           [Lit "  Error creating static instance: "; FExc e]])).
Proof.
  intros Hopen Hfvar Haxes Hinst Hexc.
  unfold convert_variable_to_static, bind, try_except_Exception. run_step.
  rewrite Hopen. simpl. rewrite Hfvar. simpl. run_step. rewrite Haxes. simpl.
  run_step. rewrite Hinst. simpl. rewrite Hexc. run_step.
  by rewrite <- !app_assoc.
Qed.

(** Saving the instance raises an [Exception]: the same handler runs. *)
Lemma convert_save_instance_raises
    in_ out weight italic w f e1 axes e2 sf e3 e e4 :
  TTFont H in_ (env w) = (Val f, e1) →
  contains_fvar H f = true →
  getitem_fvar_axes H f e1 = (Val axes, e2) →
  instantiateVariableFont H f (build_axis_limits axes weight italic) e2
    = (Val sf, e3) →
  font_save H sf out e3 = (Raise e, e4) →
  is_Exception e = true →
  convert_variable_to_static in_ out weight italic w =
    (Val false,
     mkWorld (font_close H f e4)
       (calls w ++ [CallTTFont in_; CallGetFvar f;
                    CallInstantiate f (build_axis_limits axes weight italic);
                    CallSave sf out; CallClose f])
       (stdout w ++
          [[Lit "  Pinning axes: ";
            FDict (build_axis_limits axes weight italic)];
           [Lit "  Error creating static instance: "; FExc e]])).
Proof.
  intros Hopen Hfvar Haxes Hinst Hsave Hexc.
  unfold convert_variable_to_static, bind, try_except_Exception. run_step.
  rewrite Hopen. simpl. rewrite Hfvar. simpl. run_step. rewrite Haxes. simpl.
  run_step. rewrite Hinst. simpl. run_step. rewrite Hsave. simpl.
  rewrite Hexc. run_step.
  by rewrite <- !app_assoc.
Qed.

(** The instancing path when every call succeeds. *)
Lemma convert_success in_ out weight italic w f e1 axes e2 sf e3 e4 :
  TTFont H in_ (env w) = (Val f, e1) →
  contains_fvar H f = true →
  getitem_fvar_axes H f e1 = (Val axes, e2) →
  instantiateVariableFont H f (build_axis_limits axes weight italic) e2
    = (Val sf, e3) →
  font_save H sf out e3 = (Val (), e4) →
  convert_variable_to_static in_ out weight italic w =
    (Val true,
     mkWorld (font_close H f (font_close H sf e4))
       (calls w ++ [CallTTFont in_; CallGetFvar f;
                    CallInstantiate f (build_axis_limits axes weight italic);
                    CallSave sf out; CallClose sf; CallClose f])
       (stdout w ++
          [[Lit "  Pinning axes: ";
            FDict (build_axis_limits axes weight italic)]])).
Proof.
  intros Hopen Hfvar Haxes Hinst Hsave.
  unfold convert_variable_to_static, bind, try_except_Exception. run_step.
  rewrite Hopen. simpl. rewrite Hfvar. simpl. run_step. rewrite Haxes. simpl.
  run_step. rewrite Hinst. simpl. run_step. rewrite Hsave. simpl.
  by rewrite <- !app_assoc.
Qed.

(** C3, as the code has it.  For a font without an [fvar] table that opens
    and saves, the conversion makes no instancing call: it has the library
    save the font it has just opened to the output path, closes it and
    returns success.  The output file is what that [save] writes; the script
    copies no bytes itself. *)
Theorem static_font_saved_through in_ out weight italic w f e1 e2 :
  TTFont H in_ (env w) = (Val f, e1) →
  contains_fvar H f = false →
  font_save H f out e1 = (Val (), e2) →
  convert_variable_to_static in_ out weight italic w =
    (Val true,
     mkWorld (font_close H f e2)
       (calls w ++ [CallTTFont in_; CallSave f out; CallClose f])
       (stdout w ++ [[Lit "  Font is already static, copying as-is"]])).
Proof. apply convert_static. Qed.

(** Whenever the conversion function returns, the last call it made closes
    the font it opened from the input path. *)
Lemma convert_returns_closed in_ out weight italic w b w' :
  convert_variable_to_static in_ out weight italic w = (Val b, w') →
  ∃ f e1 mid,
    TTFont H in_ (env w) = (Val f, e1)
    ∧ calls w' = (calls w ++ CallTTFont in_ :: mid ++ [CallClose f])%list.
Proof.
  unfold convert_variable_to_static, bind, try_except_Exception. run_step.
  destruct (TTFont H in_ (env w)) as [[f|e] e1] eqn:Hopen; simpl; [|done].
  intros Hrun. exists f, e1.
  destruct (contains_fvar H f); simpl in Hrun; revert Hrun; run_step.
  - destruct (getitem_fvar_axes H f e1) as [[axes|e] e2]; simpl; [|done].
    run_step.
    destruct (instantiateVariableFont H f _ e2) as [[sf|e] e3]; simpl.
    + run_step. destruct (font_save H sf out e3) as [[[]|e] e4]; simpl.
      * intros [= <- <-]. simpl. eexists [_; _; _; _]. split; [done|].
        by rewrite <- !app_assoc.
      * destruct (is_Exception e); [|done]. run_step.
        intros [= <- <-]. simpl. eexists [_; _; _]. split; [done|].
        by rewrite <- !app_assoc.
    + destruct (is_Exception e); [|done]. run_step.
      intros [= <- <-]. simpl. eexists [_; _]. split; [done|].
      by rewrite <- !app_assoc.
  - destruct (font_save H f out e1) as [[[]|e] e2]; simpl; [|done].
    intros [= <- <-]. simpl. eexists [_]. split; [done|].
    by rewrite <- !app_assoc.
Qed.

(** C6.  Once the input font is open, the conversion function returns on
    each of its exit paths with the input font closed by its last call:
    with success after the copy-through, with success after instancing,
    and with the failure signal when the instancer, or the save of the
    instance, raises an [Exception].  And whenever it returns at all, its
    last call closes the input font. *)
Theorem input_font_closed_on_return in_ out weight italic w f e1 :
  TTFont H in_ (env w) = (Val f, e1) →
  let r := convert_variable_to_static in_ out weight italic w in
  (∀ e2,
     contains_fvar H f = false →
     font_save H f out e1 = (Val (), e2) →
     r.1 = Val true
     ∧ calls r.2
       = (calls w ++ [CallTTFont in_; CallSave f out; CallClose f])%list
     ∧ env r.2 = font_close H f e2)
  ∧ (∀ axes e2 sf e3 e4,
       contains_fvar H f = true →
       getitem_fvar_axes H f e1 = (Val axes, e2) →
       instantiateVariableFont H f (build_axis_limits axes weight italic) e2
         = (Val sf, e3) →
       font_save H sf out e3 = (Val (), e4) →
       r.1 = Val true
       ∧ calls r.2
         = (calls w ++
              [CallTTFont in_; CallGetFvar f;
               CallInstantiate f (build_axis_limits axes weight italic);
               CallSave sf out; CallClose sf; CallClose f])%list
       ∧ env r.2 = font_close H f (font_close H sf e4))
  ∧ (∀ axes e2 e e3,
       contains_fvar H f = true →
       getitem_fvar_axes H f e1 = (Val axes, e2) →
       instantiateVariableFont H f (build_axis_limits axes weight italic) e2
         = (Raise e, e3) →
       is_Exception e = true →
       r.1 = Val false
       ∧ calls r.2
         = (calls w ++
              [CallTTFont in_; CallGetFvar f;
               CallInstantiate f (build_axis_limits axes weight italic);
               CallClose f])%list
       ∧ env r.2 = font_close H f e3)
  ∧ (∀ axes e2 sf e3 e e4,
       contains_fvar H f = true →
       getitem_fvar_axes H f e1 = (Val axes, e2) →
       instantiateVariableFont H f (build_axis_limits axes weight italic) e2
         = (Val sf, e3) →
       font_save H sf out e3 = (Raise e, e4) →
       is_Exception e = true →
       r.1 = Val false
       ∧ calls r.2
         = (calls w ++
              [CallTTFont in_; CallGetFvar f;
               CallInstantiate f (build_axis_limits axes weight italic);
               CallSave sf out; CallClose f])%list
       ∧ env r.2 = font_close H f e4)
  ∧ (∀ b w',
       r = (Val b, w') →
       ∃ mid,
         calls w' = (calls w ++ CallTTFont in_ :: mid ++ [CallClose f])%list).
Proof.
  intros Hopen r. subst r. repeat split.
  - by erewrite convert_static.
  - by erewrite convert_static.
  - by erewrite convert_static.
  - by erewrite convert_success.
  - by erewrite convert_success.
  - by erewrite convert_success.
  - by erewrite convert_instancing_raises.
  - by erewrite convert_instancing_raises.
  - by erewrite convert_instancing_raises.
  - by erewrite convert_save_instance_raises.
  - by erewrite convert_save_instance_raises.
  - by erewrite convert_save_instance_raises.
  - intros b w' Hrun.
    destruct (convert_returns_closed _ _ _ _ _ _ _ Hrun)
      as (f' & e1' & mid & Hopen' & Hcalls).
    rewrite Hopen in Hopen'. injection Hopen' as <- <-. eauto.
Qed.

(** C10.  On an input without an [fvar] table, the conversion run from the
    same world with two weights and two italic flags has the same result
    and leaves the same world, so every file, the output file among them,
    has the same bytes. *)
Theorem static_output_ignores_weight_and_italic
    in_ out weight1 italic1 weight2 italic2 w :
  (∀ f e1, TTFont H in_ (env w) = (Val f, e1) → contains_fvar H f = false) →
  convert_variable_to_static in_ out weight1 italic1 w
  = convert_variable_to_static in_ out weight2 italic2 w
  ∧ ∀ path,
      file_bytes H path
        (env (convert_variable_to_static in_ out weight1 italic1 w).2)
      = file_bytes H path
          (env (convert_variable_to_static in_ out weight2 italic2 w).2).
Proof.
  intros Hstatic.
  assert (convert_variable_to_static in_ out weight1 italic1 w
          = convert_variable_to_static in_ out weight2 italic2 w) as Heq.
  { unfold convert_variable_to_static, bind. run_step.
    destruct (TTFont H in_ (env w)) as [[f|e] e1] eqn:Hopen; simpl; [|done].
    by rewrite (Hstatic f e1). }
  split; [done|]. intros path. by rewrite Heq.
Qed.

(** *** The driver *)

Lemma main_too_few argv w :
  (length argv < 4)%nat →
  main argv w =
    (Raise (SystemExit 1), mkWorld (env w) (calls w) (stdout w ++ usage)).
Proof.
  intros Hlen. unfold main.
  destruct (Nat.ltb_spec (length argv) 4) as [_|?]; [|lia].
  unfold bind. by rewrite print_all_run.
Qed.

Lemma main_bad_weight prog input output a3 rest w :
  py_int H a3 = None →
  main (prog :: input :: output :: a3 :: rest) w
  = (Raise (InvalidLiteral a3), w).
Proof.
  intros Hint. unfold main.
  destruct (Nat.ltb_spec (length (prog :: input :: output :: a3 :: rest)) 4)
    as [Hlen|_]; [simpl in Hlen; lia|].
  unfold bind, argv_get, int_. simpl. by rewrite Hint.
Qed.

(** With three arguments and a weight that parses, [main] checks the input
    path, converts, and turns the result into an exit code. *)
Lemma main_run prog input output a3 rest weight w :
  py_int H a3 = Some weight →
  main (prog :: input :: output :: a3 :: rest) w =
    let italic := italic_flag_spec (prog :: input :: output :: a3 :: rest) in
    if os_path_exists H input (env w) then
      match
        convert_variable_to_static input output weight italic
          (mkWorld (env w) (calls w ++ [CallExists input])
             (stdout w ++
                [[Lit "Converting: "; FStr input; Lit " -> "; FStr output];
                 [Lit "  Weight: "; FInt weight; Lit ", Italic: ";
                  FBool italic]]))
      with
      | (Val true, w') =>
          match os_path_getsize H output (env w') with
          | Val size =>
              (Raise (SystemExit 0),
               mkWorld (env w') (calls w' ++ [CallGetsize output])
                 (stdout w' ++
                    [[Lit "  Created static font: "; FStr output; Lit " (";
                      FIntComma size; Lit " bytes)"]]))
          | Raise e =>
              (Raise e,
               mkWorld (env w') (calls w' ++ [CallGetsize output]) (stdout w'))
          end
      | (Val false, w') =>
          (Raise (SystemExit 1),
           mkWorld (env w') (calls w')
             (stdout w' ++ [[Lit "  Failed to create static font"]]))
      | (Raise e, w') => (Raise e, w')
      end
    else
      (Raise (SystemExit 1),
       mkWorld (env w) (calls w ++ [CallExists input])
         (stdout w ++ [[Lit "Error: Input file not found: "; FStr input]])).
Proof.
  intros Hint. unfold main.
  destruct (Nat.ltb_spec (length (prog :: input :: output :: a3 :: rest)) 4)
    as [Hlen|_]; [simpl in Hlen; lia|].
  rewrite (bind_Val _ _ w input w) by done.
  rewrite (bind_Val _ _ w output w) by done.
  rewrite (bind_Val _ _ w a3 w) by done.
  rewrite (bind_Val _ _ w weight w) by (unfold int_; by rewrite Hint).
  rewrite (bind_Val _ _ w _ w (italic_arg_run _ _)).
  erewrite bind_Val by (unfold exists_; rewrite effect_run; reflexivity).
  cbv zeta. simpl fst. simpl snd.
  destruct (os_path_exists H input (env w)); unfold negb.
  - erewrite bind_Val by done. erewrite bind_Val by done. simpl.
    rewrite <- app_assoc. simpl app. unfold bind at 1.
    destruct (convert_variable_to_static _ _ _ _ _) as [[[]|e] w']; [| |done].
    + unfold bind, getsize. rewrite effect_run. simpl.
      by destruct (os_path_getsize H output (env w')).
    + done.
  - done.
Qed.


(** C9.  When the weight argument does not parse as an integer, [main]
    raises the [ValueError] of [int] and leaves the world as it found it:
    the existence of the input path is not checked and no line is printed,
    whether or not the input path exists. *)
Theorem bad_weight_raises_first prog input output a3 rest w :
  py_int H a3 = None →
  main (prog :: input :: output :: a3 :: rest) w
  = (Raise (InvalidLiteral a3), w)
  ∧ run_script (prog :: input :: output :: a3 :: rest) w
    = (Traceback (InvalidLiteral a3), w).
Proof.
  intros Hint. unfold run_script. by rewrite main_bad_weight.
Qed.

(** C4.  When the instancing call raises an [Exception], the conversion
    function catches it, prints it, closes the input font and returns the
    failure signal; the script then prints the failure line and exits with
    code 1.  The instancer is called once. *)
Theorem instancing_failure_handled
    prog input output a3 rest weight w f e1 axes e2 e e3 :
  let argv := prog :: input :: output :: a3 :: rest in
  let limits := build_axis_limits axes weight (italic_flag_spec argv) in
  py_int H a3 = Some weight →
  os_path_exists H input (env w) = true →
  TTFont H input (env w) = (Val f, e1) →
  contains_fvar H f = true →
  getitem_fvar_axes H f e1 = (Val axes, e2) →
  instantiateVariableFont H f limits e2 = (Raise e, e3) →
  is_Exception e = true →
  convert_variable_to_static input output weight (italic_flag_spec argv) w =
    (Val false,
     mkWorld (font_close H f e3)
       (calls w ++ [CallTTFont input; CallGetFvar f;
                    CallInstantiate f limits; CallClose f])
       (stdout w ++
          [[Lit "  Pinning axes: "; FDict limits];
           [Lit "  Error creating static instance: "; FExc e]]))
  ∧ run_script argv w =
      (Exit 1,
       mkWorld (font_close H f e3)
         (calls w ++ [CallExists input; CallTTFont input; CallGetFvar f;
                      CallInstantiate f limits; CallClose f])
         (stdout w ++
            [[Lit "Converting: "; FStr input; Lit " -> "; FStr output];
             [Lit "  Weight: "; FInt weight; Lit ", Italic: ";
              FBool (italic_flag_spec argv)];
             [Lit "  Pinning axes: "; FDict limits];
             [Lit "  Error creating static instance: "; FExc e];
             [Lit "  Failed to create static font"]])).
Proof.
  intros argv limits Hint Hexists Hopen Hfvar Haxes Hinst Hexc.
  subst argv limits. split.
  - by eapply convert_instancing_raises.
  - unfold run_script. rewrite (main_run _ _ _ _ _ weight) by done.
    cbv zeta. rewrite Hexists.
    erewrite convert_instancing_raises by done. simpl.
    by rewrite <- !app_assoc.
Qed.

(** C5, as the code has it.  A failure to write the output is left alone
    only on the copy-through path, where it ends the process with a
    traceback.  A failure to write the instance is raised inside the [try]
    block: an [Exception] is caught there like a failure of the instancer,
    printed, the input font is closed, the function returns the failure
    signal and the script exits with code 1. *)
Theorem write_failure_handling prog input output a3 rest weight w f e1 :
  let argv := prog :: input :: output :: a3 :: rest in
  let italic := italic_flag_spec argv in
  let banner : list (list (fragment_of H)) :=
    [[Lit "Converting: "; FStr input; Lit " -> "; FStr output];
     [Lit "  Weight: "; FInt weight; Lit ", Italic: "; FBool italic]] in
  py_int H a3 = Some weight →
  os_path_exists H input (env w) = true →
  TTFont H input (env w) = (Val f, e1) →
  (∀ e e2,
     contains_fvar H f = false →
     font_save H f output e1 = (Raise e, e2) →
     is_Exception e = true →
     run_script argv w =
       (Traceback e,
        mkWorld e2
          (calls w ++ [CallExists input; CallTTFont input; CallSave f output])
          (stdout w ++ banner ++
             [[Lit "  Font is already static, copying as-is"]])))
  ∧ (∀ axes e2 sf e3 e e4,
       contains_fvar H f = true →
       getitem_fvar_axes H f e1 = (Val axes, e2) →
       instantiateVariableFont H f (build_axis_limits axes weight italic) e2
         = (Val sf, e3) →
       font_save H sf output e3 = (Raise e, e4) →
       is_Exception e = true →
       run_script argv w =
         (Exit 1,
          mkWorld (font_close H f e4)
            (calls w ++
               [CallExists input; CallTTFont input; CallGetFvar f;
                CallInstantiate f (build_axis_limits axes weight italic);
                CallSave sf output; CallClose f])
            (stdout w ++ banner ++
               [[Lit "  Pinning axes: ";
                 FDict (build_axis_limits axes weight italic)];
                [Lit "  Error creating static instance: "; FExc e];
                [Lit "  Failed to create static font"]]))).
Proof.
  intros argv italic banner Hint Hexists Hopen.
  subst argv italic banner. split.
  - intros e e2 Hfvar Hsave Hexc.
    unfold run_script. rewrite (main_run _ _ _ _ _ weight) by done.
    cbv zeta. rewrite Hexists.
    erewrite convert_static_save_raises by done. simpl.
    rewrite <- !app_assoc. simpl. by destruct e.
  - intros axes e2 sf e3 e e4 Hfvar Haxes Hinst Hsave Hexc.
    unfold run_script. rewrite (main_run _ _ _ _ _ weight) by done.
    cbv zeta. rewrite Hexists.
    erewrite convert_save_instance_raises by done. simpl.
    by rewrite <- !app_assoc.
Qed.

End RunFacts.

(** ** The script on the sample host *)

Section SampleRuns.
Import Sample.

(** A static font saved by a host that writes the bytes it read. *)
Lemma static_font_saved_through_witness :
  let w := start false false in
  let r := convert_variable_to_static "Static.ttf" "out.ttf" 400 false w in
  r.1 = Val true
  ∧ file_bytes (host false) "Static.ttf" (env w) = Some "OTTO static"
  ∧ file_bytes (host false) "out.ttf" (env r.2) = Some "OTTO static".
Proof.
  cbv zeta.
  erewrite (static_font_saved_through (H := host false));
    [|reflexivity..].
  repeat split; by vm_compute.
Defined.

(** C3, as stated, fails: a host whose [save] refreshes the modification
    time of the font opens a static font, the conversion succeeds, and the
    bytes of the output are not the bytes of the input. *)
Lemma static_copy_restamped :
  let w := start true false in
  let r := convert_variable_to_static "Static.ttf" "out.ttf" 400 false w in
  (∃ f e1, TTFont (host true) "Static.ttf" (env w) = (Val f, e1)
           ∧ contains_fvar (host true) f = false)
  ∧ r.1 = Val true
  ∧ file_bytes (host true) "Static.ttf" (env w) = Some "OTTO static"
  ∧ file_bytes (host true) "out.ttf" (env r.2)
    = Some "OTTO static@1700000000"
  ∧ file_bytes (host true) "out.ttf" (env r.2)
    ≠ file_bytes (host true) "Static.ttf" (env w).
Proof.
  cbv zeta. split; [|repeat split; by vm_compute].
  eexists _, _. split; [reflexivity|]. by vm_compute.
Qed.

(** The instancer refuses the weight 5000. *)
Lemma instancing_failure_handled_witness :
  let r := run_script [script; "Variable.ttf"; "out.ttf"; "5000"]
             (start false false) in
  r.1 = Exit 1
  ∧ last (stdout r.2) = Some [Lit "  Failed to create static font"]
  ∧ last (calls r.2) = Some (CallClose variable_font).
Proof.
  cbv zeta.
  edestruct (instancing_failure_handled (H := host false)
               script "Variable.ttf" "out.ttf" "5000" [] 5000
               (start false false)) as [_ Hrun];
    [reflexivity..|].
  rewrite Hrun. repeat split; by vm_compute.
Defined.

(** C5, as stated, fails: on a full disk the instance of a variable font
    cannot be saved; the [OSError] of [save] is caught, printed, and the
    script exits with code 1 on its own failure path. *)
Lemma write_failure_of_instance_caught :
  let w := start false true in
  let limits :=
    build_axis_limits (default [] (font_axes variable_font)) 700 false in
  let r := run_script [script; "Variable.ttf"; "out.ttf"; "700"] w in
  font_save (host false) instance_font "out.ttf" (env w)
    = (Raise (PyException "OSError" "No space left on device"), env w)
  ∧ r.1 = Exit 1
  ∧ calls r.2 =
      [CallExists "Variable.ttf"; CallTTFont "Variable.ttf";
       CallGetFvar variable_font;
       CallInstantiate variable_font limits;
       CallSave instance_font "out.ttf";
       CallClose variable_font]
  ∧ stdout r.2 =
      [[Lit "Converting: "; FStr "Variable.ttf"; Lit " -> "; FStr "out.ttf"];
       [Lit "  Weight: "; FInt 700; Lit ", Italic: "; FBool false];
       [Lit "  Pinning axes: "; FDict limits];
       [Lit "  Error creating static instance: ";
        FExc (PyException "OSError" "No space left on device")];
       [Lit "  Failed to create static font"]].
Proof. cbv zeta. repeat split; by vm_compute. Qed.

(** On a full disk: a static font ends the script with a traceback, a
    variable font with exit code 1. *)
Lemma write_failure_handling_witness :
  (run_script [script; "Static.ttf"; "out.ttf"; "400"] (start false true)).1
    = Traceback (PyException "OSError" "No space left on device")
  ∧ (run_script [script; "Variable.ttf"; "out.ttf"; "700"]
       (start false true)).1 = Exit 1.
Proof.
  split.
  - edestruct (write_failure_handling (H := host false)
                 script "Static.ttf" "out.ttf" "400" [] 400
                 (start false true)) as [Hstatic _];
      [reflexivity..|].
    erewrite Hstatic; [|reflexivity..]. reflexivity.
  - edestruct (write_failure_handling (H := host false)
                 script "Variable.ttf" "out.ttf" "700" [] 700
                 (start false true)) as [_ Hvariable];
      [reflexivity..|].
    erewrite Hvariable; [|reflexivity..]. reflexivity.
Defined.

(** The three exit paths on the sample disk: the static font copied
    through, the variable font instanced at weight 700, and the instancer
    refusing the weight 5000.  Each returns, and each closes its input font
    last. *)
Lemma input_font_closed_on_return_witness :
  let w := start false false in
  let copied :=
    convert_variable_to_static "Static.ttf" "out.ttf" 400 false w in
  let instanced :=
    convert_variable_to_static "Variable.ttf" "out.ttf" 700 false w in
  let refused :=
    convert_variable_to_static "Variable.ttf" "out.ttf" 5000 false w in
  (copied.1 = Val true
   ∧ last (calls copied.2) = Some (CallClose (mkFont "OTTO static" None)))
  ∧ (instanced.1 = Val true
     ∧ last (calls instanced.2) = Some (CallClose variable_font))
  ∧ (refused.1 = Val false
     ∧ last (calls refused.2) = Some (CallClose variable_font)).
Proof.
  cbv zeta.
  pose proof (input_font_closed_on_return (H := host false)
                "Static.ttf" "out.ttf" 400 false (start false false)
                (mkFont "OTTO static" None) (env (start false false))
                eq_refl) as Hstatic.
  pose proof (input_font_closed_on_return (H := host false)
                "Variable.ttf" "out.ttf" 700 false (start false false)
                variable_font (env (start false false)) eq_refl) as Hok.
  pose proof (input_font_closed_on_return (H := host false)
                "Variable.ttf" "out.ttf" 5000 false (start false false)
                variable_font (env (start false false)) eq_refl) as Hbad.
  cbv zeta in Hstatic, Hok, Hbad.
  destruct Hstatic as (Hcopy & _).
  destruct Hok as (_ & Hinstance & _).
  destruct Hbad as (_ & _ & Hrefuse & _).
  edestruct Hcopy as (-> & -> & _); [reflexivity..|].
  edestruct Hinstance as (-> & -> & _); [reflexivity..|].
  edestruct Hrefuse as (-> & -> & _); [reflexivity..|].
  repeat split.
Defined.

(** The same static font at two weights, upright and italic. *)
Lemma static_output_ignores_weight_and_italic_witness :
  convert_variable_to_static "Static.ttf" "out.ttf" 400 false (start true false)
  = convert_variable_to_static "Static.ttf" "out.ttf" 900 true (start true false).
Proof.
  apply (static_output_ignores_weight_and_italic (H := host true)).
  intros f e1 Hopen. vm_compute in Hopen. by inversion Hopen.
Defined.



(** The token in capitals and in mixed case; another word; a longer word;
    no fourth argument. *)
Lemma italic_flag_correct_witness :
  let w := start false false in
  italic_arg [script; "in.ttf"; "out.ttf"; "400"; "ITALIC"] w = (Val true, w)
  ∧ italic_arg [script; "in.ttf"; "out.ttf"; "400"; "iTaLiC"] w
    = (Val true, w)
  ∧ italic_arg [script; "in.ttf"; "out.ttf"; "400"; "bold"] w = (Val false, w)
  ∧ italic_arg [script; "in.ttf"; "out.ttf"; "400"; "italics"] w
    = (Val false, w)
  ∧ italic_arg [script; "in.ttf"; "out.ttf"; "400"] w = (Val false, w).
Proof.
  cbv zeta. split; [|split; [|split; [|split]]].
  - destruct (italic_flag_correct (H := host false)
                [script; "in.ttf"; "out.ttf"; "400"; "ITALIC"]
                (start false false)) as (_ & Hspelled & _).
    apply Hspelled.
    eexists _, _, _, _, _, _. split; [reflexivity|]. tauto.
  - destruct (italic_flag_correct (H := host false)
                [script; "in.ttf"; "out.ttf"; "400"; "iTaLiC"]
                (start false false)) as (_ & Hspelled & _).
    apply Hspelled.
    eexists _, _, _, _, _, _. split; [reflexivity|]. tauto.
  - destruct (italic_flag_correct (H := host false)
                [script; "in.ttf"; "out.ttf"; "400"; "bold"]
                (start false false)) as (_ & _ & -> & _).
    reflexivity.
  - destruct (italic_flag_correct (H := host false)
                [script; "in.ttf"; "out.ttf"; "400"; "italics"]
                (start false false)) as (_ & _ & -> & _).
    reflexivity.
  - destruct (italic_flag_correct (H := host false)
                [script; "in.ttf"; "out.ttf"; "400"]
                (start false false)) as (_ & _ & -> & _).
    reflexivity.
Defined.

(** A weight that is no integer, and an input path that is not on the
    disk: the [ValueError] comes first. *)
Lemma bad_weight_raises_first_witness :
  run_script [script; "Nope.ttf"; "out.ttf"; "7x"] (start false false)
  = (Traceback (InvalidLiteral "7x"), start false false).
Proof.
  apply (bad_weight_raises_first (H := host false)). by vm_compute.
Defined.

End SampleRuns.

(** * Further properties *)

(** ** More of the axis-pinning policy *)

Section MoreAxisLimits.
Context {float : Type}.
Implicit Types (axes : list (Axis float)).

Lemma pinned_tags_size : size pinned_tags = 5%nat.
Proof. by vm_compute. Qed.

Lemma declared_default_first (pre post : list (Axis float)) a tag :
  tag ∉ tag_set pre →
  axisTag a = tag →
  declared_default (pre ++ a :: post) tag = Some (defaultValue a).
Proof.
  unfold declared_default, tag_set. intros Hpre Htag.
  induction pre as [|b pre IH]; simpl.
  - by rewrite filter_cons_True.
  - simpl in Hpre. rewrite not_elem_of_union, not_elem_of_singleton in Hpre.
    destruct Hpre as [Hb Hpre].
    rewrite filter_cons_False by done. by apply IH.
Qed.

(** X11.  On a font with neither an [ital] nor a [slnt] axis the italic
    flag changes nothing: the italic and the upright request pin the same
    values. *)
Theorem italic_ignored_without_italic_axes axes weight :
  "ital" ∉ tag_set axes →
  "slnt" ∉ tag_set axes →
  build_axis_limits axes weight true = build_axis_limits axes weight false.
Proof.
  intros Hital Hslnt. apply map_eq. intros tag.
  rewrite !build_axis_limits_lookup. case_decide as Hin; [|done].
  unfold pinned_value_spec. repeat case_decide; simplify_eq; done.
Qed.

(** X12.  On a font without a [wght] axis the weight changes nothing. *)
Theorem weight_ignored_without_wght_axis axes weight1 weight2 italic :
  "wght" ∉ tag_set axes →
  build_axis_limits axes weight1 italic = build_axis_limits axes weight2 italic.
Proof.
  intros Hwght. apply map_eq. intros tag.
  rewrite !build_axis_limits_lookup. case_decide as Hin; [|done].
  unfold pinned_value_spec. repeat case_decide; simplify_eq; done.
Qed.

(** X13.  The axis limits depend on the font only through the set of its
    axis tags and the default of its [opsz] axis: the order of the axes,
    repeated descriptors and the defaults of the other axes do not matter. *)
Theorem axis_limits_from_tags_and_opsz_default axes axes' weight italic :
  tag_set axes = tag_set axes' →
  declared_default axes "opsz" = declared_default axes' "opsz" →
  build_axis_limits axes weight italic = build_axis_limits axes' weight italic.
Proof.
  intros Htags Hopsz. apply map_eq. intros tag.
  rewrite !build_axis_limits_lookup, Htags. case_decide as Hin; [|done].
  unfold pinned_value_spec. by rewrite Hopsz.
Qed.

(** X14.  At most five axes are pinned, and never more than the font has
    distinct tags. *)
Theorem axis_limits_at_most_five axes weight italic :
  (size (build_axis_limits axes weight italic) ≤ 5)%nat
  ∧ (size (build_axis_limits axes weight italic) ≤ size (tag_set axes))%nat.
Proof.
  rewrite <- size_dom.
  assert (dom (build_axis_limits axes weight italic) ⊆ pinned_tags) as H5.
  { intros tag. rewrite build_axis_limits_dom. tauto. }
  assert (dom (build_axis_limits axes weight italic) ⊆ tag_set axes) as Ht.
  { intros tag. rewrite build_axis_limits_dom. tauto. }
  split.
  - rewrite <- pinned_tags_size. by apply subseteq_size.
  - by apply subseteq_size.
Qed.

(** X16.  When a font carries several [opsz] descriptors, the loop of lines
    77-80 stops at the first: its default is the one pinned. *)
Theorem first_opsz_descriptor_wins (pre post : list (Axis float)) a
    weight italic :
  "opsz" ∉ tag_set pre →
  axisTag a = "opsz" →
  build_axis_limits (pre ++ a :: post) weight italic !! "opsz"
  = Some (defaultValue a).
Proof.
  intros Hpre Htag. rewrite build_axis_limits_lookup.
  rewrite decide_True.
  - unfold pinned_value_spec. simpl. by apply declared_default_first.
  - unfold tag_set. rewrite elem_of_list_to_set, list_elem_of_fmap.
    exists a. split; [done|]. rewrite elem_of_app, elem_of_cons. tauto.
Qed.

End MoreAxisLimits.

(** ** More of the conversion function *)

(** Every way through the conversion function: one goal per outcome of the
    calls it makes on the host. *)
Ltac convert_paths H in_ out w :=
  unfold convert_variable_to_static, bind, try_except_Exception; run_step;
  let f := fresh "f" in let e := fresh "e" in
  let sf := fresh "sf" in let axes := fresh "axes" in
  let e1 := fresh "e1" in let e2 := fresh "e2" in
  let e3 := fresh "e3" in let e4 := fresh "e4" in
  let Hopen := fresh "Hopen" in let Hfvar := fresh "Hfvar" in
  let Haxes := fresh "Haxes" in let Hinst := fresh "Hinst" in
  let Hsave := fresh "Hsave" in let Hexc := fresh "Hexc" in
  destruct (TTFont H in_ (env w)) as [[f|e] e1] eqn:Hopen; simpl;
  [ destruct (contains_fvar H f) eqn:Hfvar; simpl; run_step;
    [ destruct (getitem_fvar_axes H f e1) as [[axes|e] e2] eqn:Haxes;
      simpl; run_step;
      [ destruct (instantiateVariableFont H f _ e2) as [[sf|e] e3] eqn:Hinst;
        simpl; run_step;
        [ destruct (font_save H sf out e3) as [[[]|e] e4] eqn:Hsave;
          simpl; run_step;
          [ | destruct (is_Exception e) eqn:Hexc; simpl; run_step ]
        | destruct (is_Exception e) eqn:Hexc; simpl; run_step ]
      | ]
    | destruct (font_save H f out e1) as [[[]|e] e2] eqn:Hsave;
      simpl; run_step ]
  | ];
  rewrite <- ?app_assoc; simpl.

Section MoreConvert.
Context {H : Host}.
Implicit Types (w : world_of H) (f : Font H).

Lemma convert_open_raises in_ out weight italic w e e1 :
  TTFont H in_ (env w) = (Raise e, e1) →
  convert_variable_to_static in_ out weight italic w =
    (Raise e, mkWorld e1 (calls w ++ [CallTTFont in_]) (stdout w)).
Proof.
  intros Hopen.
  unfold convert_variable_to_static, bind. run_step. by rewrite Hopen.
Qed.

Lemma convert_true_saved in_ out weight italic w w' :
  convert_variable_to_static in_ out weight italic w = (Val true, w') →
  ∃ new font e e',
    calls w' = (calls w ++ new)%list
    ∧ CallSave font out ∈ new
    ∧ font_save H font out e = (Val (), e').
Proof.
  convert_paths H in_ out w; intros [= <-]; try done;
    eexists _, _, _, _; (split; [reflexivity|]);
    (split; [|eassumption]); rewrite !elem_of_cons; tauto.
Qed.

Lemma convert_raises_inv in_ out weight italic w e w' :
  convert_variable_to_static in_ out weight italic w = (Raise e, w') →
  (∃ ea eb, TTFont H in_ ea = (Raise e, eb))
  ∨ (∃ font ea eb, getitem_fvar_axes H font ea = (Raise e, eb))
  ∨ (∃ font limits ea eb,
       instantiateVariableFont H font limits ea = (Raise e, eb))
  ∨ (∃ font ea eb, font_save H font out ea = (Raise e, eb)).
Proof.
  convert_paths H in_ out w; intros [= <- <-]; eauto 10.
Qed.

Lemma convert_trace in_ out weight italic w :
  ∃ new,
    calls (convert_variable_to_static in_ out weight italic w).2
      = (calls w ++ new)%list
    ∧ (length (filter is_instantiate new) ≤ 1)%nat
    ∧ (∀ path, CallTTFont path ∈ new → path = in_)
    ∧ (∀ font path, CallSave font path ∈ new → path = out)
    ∧ (∀ font limits,
         CallInstantiate font limits ∈ new →
         ∃ axes e1 e2,
           getitem_fvar_axes H font e1 = (Val axes, e2)
           ∧ limits = build_axis_limits axes weight italic)
    ∧ (∀ path, (CallExists path ∉ new) ∧ (CallGetsize path ∉ new)).
Proof.
  convert_paths H in_ out w;
    (eexists; split; [reflexivity|]);
    (split; [simpl; lia|]);
    repeat split; intros *; rewrite ?elem_of_cons, ?elem_of_nil;
    intros Hin; repeat destruct Hin as [Hin|Hin]; simplify_eq;
    first [done | eauto 10].
Qed.

(** X2.  Whatever the host does, one conversion opens no path but the input
    path, saves to no path but the output path, runs the instancer at most
    once, and hands it the limits computed from the axes the font itself
    gave, the weight and the italic flag. *)
Theorem conversion_trace_discipline in_ out weight italic w :
  ∃ new,
    calls (convert_variable_to_static in_ out weight italic w).2
      = (calls w ++ new)%list
    ∧ (length (filter is_instantiate new) ≤ 1)%nat
    ∧ (∀ path, CallTTFont path ∈ new → path = in_)
    ∧ (∀ font path, CallSave font path ∈ new → path = out)
    ∧ (∀ font limits,
         CallInstantiate font limits ∈ new →
         ∃ axes e1 e2,
           getitem_fvar_axes H font e1 = (Val axes, e2)
           ∧ limits = build_axis_limits axes weight italic).
Proof.
  destruct (convert_trace in_ out weight italic w)
    as (new & Hcalls & Honce & Hopen & Hsave & Hinst & _).
  exists new. eauto.
Qed.

(** X3.  The conversion function returns success only after a [save] to the
    output path that did not raise. *)
Theorem success_only_after_save in_ out weight italic w w' :
  convert_variable_to_static in_ out weight italic w = (Val true, w') →
  ∃ new font e e',
    calls w' = (calls w ++ new)%list
    ∧ CallSave font out ∈ new
    ∧ font_save H font out e = (Val (), e').
Proof. apply convert_true_saved. Qed.


(** X5.  What the instancer raises that is no [Exception] (an interrupt
    from the keyboard, say) is not caught: it leaves the conversion
    function at once, nothing more is printed and the input font is not
    closed. *)
Theorem non_Exception_not_caught
    in_ out weight italic w f e1 axes e2 e e3 :
  TTFont H in_ (env w) = (Val f, e1) →
  contains_fvar H f = true →
  getitem_fvar_axes H f e1 = (Val axes, e2) →
  instantiateVariableFont H f (build_axis_limits axes weight italic) e2
    = (Raise e, e3) →
  is_Exception e = false →
  convert_variable_to_static in_ out weight italic w =
    (Raise e,
     mkWorld e3
       (calls w ++ [CallTTFont in_; CallGetFvar f;
                    CallInstantiate f (build_axis_limits axes weight italic)])
       (stdout w ++
          [[Lit "  Pinning axes: ";
            FDict (build_axis_limits axes weight italic)]])).
Proof.
  intros Hopen Hfvar Haxes Hinst Hexc.
  unfold convert_variable_to_static, bind, try_except_Exception. run_step.
  rewrite Hopen. simpl. rewrite Hfvar. simpl. run_step. rewrite Haxes. simpl.
  run_step. rewrite Hinst. simpl. rewrite Hexc.
  by rewrite <- !app_assoc.
Qed.

(** X6.  Loading the [fvar] table on line 51 happens before the [try]
    block: whatever it raises, an [Exception] included, leaves the
    conversion function uncaught, with nothing printed and the input font
    not closed. *)
Theorem fvar_failure_not_caught in_ out weight italic w f e1 e e2 :
  TTFont H in_ (env w) = (Val f, e1) →
  contains_fvar H f = true →
  getitem_fvar_axes H f e1 = (Raise e, e2) →
  convert_variable_to_static in_ out weight italic w =
    (Raise e,
     mkWorld e2 (calls w ++ [CallTTFont in_; CallGetFvar f]) (stdout w)).
Proof.
  intros Hopen Hfvar Haxes.
  unfold convert_variable_to_static, bind, try_except_Exception. run_step.
  rewrite Hopen. simpl. rewrite Hfvar. simpl. run_step. rewrite Haxes. simpl.
  by rewrite <- !app_assoc.
Qed.

(** ** More of the driver *)

(** X7.  When the input path exists but [TTFont] raises an [Exception] on
    it, the script has printed its two banner lines and ends with a
    traceback: nothing is saved and the failure line is not printed. *)
Theorem unreadable_font_ends_in_traceback
    prog input output a3 rest weight w e e1 :
  py_int H a3 = Some weight →
  os_path_exists H input (env w) = true →
  TTFont H input (env w) = (Raise e, e1) →
  is_Exception e = true →
  run_script (prog :: input :: output :: a3 :: rest) w =
    (Traceback e,
     mkWorld e1 (calls w ++ [CallExists input; CallTTFont input])
       (stdout w ++
          [[Lit "Converting: "; FStr input; Lit " -> "; FStr output];
           [Lit "  Weight: "; FInt weight; Lit ", Italic: ";
            FBool (italic_flag_spec
                     (prog :: input :: output :: a3 :: rest))]])).
Proof.
  intros Hint Hexists Hopen Hexc.
  unfold run_script. rewrite (main_run _ _ _ _ _ weight) by done.
  cbv zeta. rewrite Hexists.
  erewrite convert_open_raises by done. simpl.
  rewrite <- !app_assoc. simpl. by destruct e.
Qed.

(** X1.  A variable font that opens, instances and saves: the script pins
    the axes, saves the instance to the output path, closes the instance and
    then the input font, reads the size of the output, prints it and exits
    with code 0. *)
Theorem success_run
    prog input output a3 rest weight w f e1 axes e2 sf e3 e4 size :
  let argv := prog :: input :: output :: a3 :: rest in
  let limits := build_axis_limits axes weight (italic_flag_spec argv) in
  py_int H a3 = Some weight →
  os_path_exists H input (env w) = true →
  TTFont H input (env w) = (Val f, e1) →
  contains_fvar H f = true →
  getitem_fvar_axes H f e1 = (Val axes, e2) →
  instantiateVariableFont H f limits e2 = (Val sf, e3) →
  font_save H sf output e3 = (Val (), e4) →
  os_path_getsize H output (font_close H f (font_close H sf e4)) = Val size →
  run_script argv w =
    (Exit 0,
     mkWorld (font_close H f (font_close H sf e4))
       (calls w ++ [CallExists input; CallTTFont input; CallGetFvar f;
                    CallInstantiate f limits; CallSave sf output;
                    CallClose sf; CallClose f; CallGetsize output])
       (stdout w ++
          [[Lit "Converting: "; FStr input; Lit " -> "; FStr output];
           [Lit "  Weight: "; FInt weight; Lit ", Italic: ";
            FBool (italic_flag_spec argv)];
           [Lit "  Pinning axes: "; FDict limits];
           [Lit "  Created static font: "; FStr output; Lit " (";
            FIntComma size; Lit " bytes)"]])).
Proof.
  intros argv limits Hint Hexists Hopen Hfvar Haxes Hinst Hsave Hsize.
  subst argv limits.
  unfold run_script. rewrite (main_run _ _ _ _ _ weight) by done.
  cbv zeta. rewrite Hexists.
  erewrite convert_success by done. simpl. rewrite Hsize.
  by rewrite <- !app_assoc.
Qed.

(** X8.  Arguments after the fourth positional one are ignored. *)
Theorem extra_arguments_ignored a0 a1 a2 a3 a4 rest w :
  main (a0 :: a1 :: a2 :: a3 :: a4 :: rest) w
  = main [a0; a1; a2; a3; a4] w.
Proof.
  destruct (py_int H a3) as [weight|] eqn:Hint.
  - by rewrite !(main_run _ _ _ _ _ weight) by done.
  - by rewrite !main_bad_weight by done.
Qed.

Lemma argv_shape (argv : list string) :
  (length argv < 4)%nat
  ∨ ∃ a0 a1 a2 a3 rest, argv = a0 :: a1 :: a2 :: a3 :: rest.
Proof.
  destruct argv as [|a0 [|a1 [|a2 [|a3 rest]]]]; simpl; eauto 10 with lia.
Qed.

(** X9.  [main] never returns: on every command line and every host it
    ends in [sys.exit] or in an exception. *)
Theorem main_never_returns argv w a w' : main argv w ≠ (Val a, w').
Proof.
  assert (∃ e w1, main argv w = (Raise e, w1)) as (e & w1 & ->); [|done].
  destruct (argv_shape argv) as [Hlen|(a0 & a1 & a2 & a3 & rest & ->)].
  - rewrite main_too_few by done. eauto.
  - destruct (py_int H a3) as [weight|] eqn:Hint.
    + rewrite (main_run _ _ _ _ _ weight) by done. cbv zeta.
      destruct (os_path_exists H a1 (env w)); [|eauto].
      destruct (convert_variable_to_static _ _ _ _ _) as [[[]|e] w1];
        [|eauto..].
      destruct (os_path_getsize H a2 (env w1)); eauto.
    + rewrite main_bad_weight by done. eauto.
Qed.

(** X10.  On a host whose calls never raise [SystemExit], the script exits
    with code 0 or 1 only, and with code 0 only after a [save] to the output
    path, its last line being the one that reports the size of the output. *)
Theorem exit_code_contract argv w code w' :
  never_exits H →
  run_script argv w = (Exit code, w') →
  (code = 0 ∨ code = 1)
  ∧ (code = 0 →
     ∃ prog input output a3 rest new font size,
       argv = prog :: input :: output :: a3 :: rest
       ∧ calls w' = (calls w ++ new)%list
       ∧ CallSave font output ∈ new
       ∧ last (stdout w') =
           Some [Lit "  Created static font: "; FStr output; Lit " (";
                 FIntComma size; Lit " bytes)"]).
Proof.
  intros Hquiet. unfold run_script.
  destruct (argv_shape argv) as [Hlen|(a0 & a1 & a2 & a3 & rest & ->)].
  { rewrite main_too_few by done. intros [= <- <-]. split; [tauto|done]. }
  destruct (py_int H a3) as [weight|] eqn:Hint;
    [|by rewrite main_bad_weight by done].
  rewrite (main_run _ _ _ _ _ weight) by done. cbv zeta.
  destruct (os_path_exists H a1 (env w));
    [|intros [= <- <-]; split; [tauto|done]].
  destruct (convert_variable_to_static _ _ _ _ _) as [[[]|e] w1] eqn:Hconv.
  - destruct (os_path_getsize H a2 (env w1)) as [size|e] eqn:Hsize.
    + intros [= <- <-]. split; [tauto|]. intros _.
      destruct (convert_true_saved _ _ _ _ _ _ Hconv)
        as (new & font & ea & eb & Hcalls & Hin & _).
      simpl in Hcalls.
      exists a0, a1, a2, a3, rest,
        (CallExists a1 :: new ++ [CallGetsize a2])%list, font, size.
      split; [done|]. simpl. rewrite Hcalls, last_snoc.
      split; [by rewrite <- !app_assoc|]. split; [|done].
      rewrite elem_of_cons, elem_of_app. tauto.
    + destruct e as [| | |code0]; try done.
      by destruct (Hquiet code0) as (_&_&_&_&Hg), (Hg a2 (env w1)).
  - intros [= <- <-]. split; [tauto|done].
  - destruct e as [| | |code0]; try done.
    destruct (convert_raises_inv _ _ _ _ _ _ _ Hconv)
      as [(?&?&Hr)|[(?&?&?&Hr)|[(?&?&?&?&Hr)|(?&?&?&Hr)]]];
      destruct (Hquiet code0) as (H1&H2&H3&H4&_);
      [by destruct (H1 _ _ _ Hr)|by destruct (H2 _ _ _ Hr)
      |by destruct (H3 _ _ _ _ Hr)|by destruct (H4 _ _ _ _ Hr)].
Qed.

Lemma run_script_world argv w : (run_script argv w).2 = (main argv w).2.
Proof.
  unfold run_script. by destruct (main argv w) as [[a|[]] w'].
Qed.

(** X15.  From the command line to the instancer: every instancing call the
    script makes carries the limits computed from the axes of the font, the
    weight parsed from the third argument as it is, and the italic flag of
    the fourth. *)
Theorem script_instancing_limits prog input output a3 rest w font limits :
  let argv := prog :: input :: output :: a3 :: rest in
  CallInstantiate font limits ∈ calls (run_script argv w).2 →
  CallInstantiate font limits ∈ calls w
  ∨ ∃ weight axes e1 e2,
      py_int H a3 = Some weight
      ∧ getitem_fvar_axes H font e1 = (Val axes, e2)
      ∧ limits = build_axis_limits axes weight (italic_flag_spec argv).
Proof.
  intros argv. subst argv. rewrite run_script_world.
  destruct (py_int H a3) as [weight|] eqn:Hint;
    [|rewrite main_bad_weight by done; simpl; tauto].
  rewrite (main_run _ _ _ _ _ weight) by done. cbv zeta.
  destruct (os_path_exists H input (env w)).
  - match goal with
    | |- context [convert_variable_to_static ?i ?o ?wt ?it ?w0] =>
        destruct (convert_trace i o wt it w0)
          as (new & Hcalls & _ & _ & _ & Hinst & _);
        destruct (convert_variable_to_static i o wt it w0)
          as [[[]|e] w1] eqn:Hconv
    end; simpl in Hcalls;
      [destruct (os_path_getsize H output (env w1))| |]; simpl;
      rewrite Hcalls, ?elem_of_app, ?list_elem_of_singleton;
      intros Hin;
      repeat match type of Hin with _ ∨ _ => destruct Hin as [Hin|Hin] end;
      simplify_eq;
      first [tauto
            | right; destruct (Hinst _ _ Hin) as (axes & e1 & e2 & ? & ?);
              eauto 10].
  - simpl. rewrite elem_of_app, list_elem_of_singleton. intros [?|[=]]. tauto.
Qed.

End MoreConvert.

(** ** More runs on the sample hosts *)

Section MoreSampleRuns.
Import Sample Faulty.

Ltac not_a_tag :=
  unfold tag_set; rewrite elem_of_list_to_set; simpl;
  rewrite ?elem_of_cons, ?elem_of_nil; intuition discriminate.

Lemma sample_never_exits stamp : never_exits (host stamp).
Proof.
  intros code. repeat split; simpl.
  - intros path e e'. unfold open_font. by destruct (fs e !! path).
  - intros font e e'. unfold load_axes. by destruct (font_axes font).
  - intros font limits e e'. unfold instance_of.
    destruct (limits !! "wght") as [[n|x]|]; try done.
    by destruct ((1 <=? n) && (n <=? 1000))%Z.
  - intros font path e e'. unfold write_font. by destruct (disk_full e).
  - intros path e. unfold size_of. by destruct (fs e !! path).
Qed.

(** A font with a weight axis only, asked for italic. *)
Lemma italic_ignored_without_italic_axes_witness :
  build_axis_limits [mkAxis "wght" (PyFloat (400 : Z))] 700 true
  = build_axis_limits [mkAxis "wght" (PyFloat (400 : Z))] 700 false.
Proof. apply italic_ignored_without_italic_axes; not_a_tag. Defined.

(** A font with an optical size axis only, at two weights. *)
Lemma weight_ignored_without_wght_axis_witness :
  build_axis_limits [mkAxis "opsz" (PyFloat (14 : Z))] 100 false
  = build_axis_limits [mkAxis "opsz" (PyFloat (14 : Z))] 900 false.
Proof. apply weight_ignored_without_wght_axis; not_a_tag. Defined.

(** The same axes in another order, with another weight default and a
    repeated descriptor. *)
Lemma axis_limits_from_tags_and_opsz_default_witness :
  build_axis_limits
    [mkAxis "wght" (PyFloat (400 : Z)); mkAxis "opsz" (PyFloat 14)] 700 false
  = build_axis_limits
      [mkAxis "opsz" (PyFloat (14 : Z)); mkAxis "wght" (PyFloat 1);
       mkAxis "wght" (PyFloat 2)] 700 false.
Proof.
  apply axis_limits_from_tags_and_opsz_default; [by vm_compute|reflexivity].
Defined.

(** Two optical size descriptors after a weight axis. *)
Lemma first_opsz_descriptor_wins_witness :
  build_axis_limits
    ([mkAxis "wght" (PyFloat (400 : Z))]
     ++ mkAxis "opsz" (PyFloat 14) :: [mkAxis "opsz" (PyFloat 72)]) 400 false
  !! "opsz" = Some (PyFloat 14).
Proof.
  apply (first_opsz_descriptor_wins [mkAxis "wght" (PyFloat (400 : Z))]
           [mkAxis "opsz" (PyFloat 72)] (mkAxis "opsz" (PyFloat 14)));
    [not_a_tag|reflexivity].
Defined.

(** The variable font of the disk at weight 700. *)
Lemma success_run_witness :
  let r := run_script [script; "Variable.ttf"; "out.ttf"; "700"]
             (start false false) in
  r.1 = Exit 0
  ∧ file_bytes (host false) "out.ttf" (env r.2) = Some "SFVF variable".
Proof.
  cbv zeta.
  pose proof (success_run (H := host false)
                script "Variable.ttf" "out.ttf" "700" [] 700
                (start false false)) as Hrun.
  cbv zeta in Hrun. erewrite Hrun; [|reflexivity..].
  split; by vm_compute.
Defined.

(** The static font of the disk: success, after one save to the output. *)
Lemma success_only_after_save_witness :
  ∃ new font e e',
    calls (convert_variable_to_static (H := host false)
             "Static.ttf" "out.ttf" 400 false (start false false)).2
      = ([] ++ new)%list
    ∧ CallSave font "out.ttf" ∈ new
    ∧ font_save (host false) font "out.ttf" e = (Val (), e').
Proof.
  apply (success_only_after_save (H := host false)
           "Static.ttf" "out.ttf" 400 false (start false false)).
  by vm_compute.
Defined.


(** An interrupt during instancing. *)
Lemma non_Exception_not_caught_witness :
  let r := convert_variable_to_static (H := faulty_host Interrupted)
             "Variable.ttf" "out.ttf" 700 false (faulty_start Interrupted) in
  r.1 = Raise (PyBaseException "KeyboardInterrupt" "")
  ∧ length (calls r.2) = 3%nat
  ∧ length (stdout r.2) = 1%nat.
Proof.
  cbv zeta.
  erewrite (non_Exception_not_caught (H := faulty_host Interrupted));
    [|reflexivity..].
  repeat split; by vm_compute.
Defined.

(** An [fvar] table that does not load. *)
Lemma fvar_failure_not_caught_witness :
  let r := convert_variable_to_static (H := faulty_host CorruptFvar)
             "Variable.ttf" "out.ttf" 700 false (faulty_start CorruptFvar) in
  r.1 = Raise (PyException "TTLibError" "bad fvar table")
  ∧ stdout r.2 = [].
Proof.
  cbv zeta.
  erewrite (fvar_failure_not_caught (H := faulty_host CorruptFvar));
    [|reflexivity..].
  split; by vm_compute.
Defined.

(** A file that is on the disk and is no font. *)
Lemma unreadable_font_ends_in_traceback_witness :
  (run_script (H := faulty_host NotAFont)
     [script; "Static.ttf"; "out.ttf"; "400"] (faulty_start NotAFont)).1
  = Traceback (PyException "TTLibError" "Not a TrueType font").
Proof.
  erewrite (unreadable_font_ends_in_traceback (H := faulty_host NotAFont));
    [|reflexivity..].
  reflexivity.
Defined.

(** The sample host never raises [SystemExit]; the script exits with 0 on
    its variable font. *)
Lemma exit_code_contract_witness :
  let argv := [script; "Variable.ttf"; "out.ttf"; "700"] in
  let w := start false false in
  (0 = 0 ∨ 0 = 1)
  ∧ (0 = 0 →
     ∃ prog input output a3 rest new font size,
       argv = prog :: input :: output :: a3 :: rest
       ∧ calls (run_script argv w).2 = (calls w ++ new)%list
       ∧ CallSave font output ∈ new
       ∧ last (stdout (run_script argv w).2) =
           Some [Lit "  Created static font: "; FStr output; Lit " (";
                 FIntComma size; Lit " bytes)"]).
Proof.
  cbv zeta.
  apply (exit_code_contract (H := host false)
           [script; "Variable.ttf"; "out.ttf"; "700"] (start false false) 0
           (run_script [script; "Variable.ttf"; "out.ttf"; "700"]
              (start false false)).2 (sample_never_exits false)).
  by vm_compute.
Defined.

(** The instancing call of the run at weight 700 carries the limits of the
    sample axes at weight 700, upright. *)
Lemma script_instancing_limits_witness :
  let limits :=
    build_axis_limits (default [] (font_axes variable_font)) 700 false in
  ∃ weight axes e1 e2,
    py_int (host false) "700" = Some weight
    ∧ getitem_fvar_axes (host false) variable_font e1 = (Val axes, e2)
    ∧ limits
      = build_axis_limits axes weight
          (italic_flag_spec [script; "Variable.ttf"; "out.ttf"; "700"]).
Proof.
  cbv zeta.
  destruct (script_instancing_limits (H := host false)
              script "Variable.ttf" "out.ttf" "700" [] (start false false)
              variable_font
              (build_axis_limits (default [] (font_axes variable_font))
                 700 false)) as [Hold|Hnew].
  - assert (calls (run_script (H := host false)
                     [script; "Variable.ttf"; "out.ttf"; "700"]
                     (start false false)).2
            = [CallExists "Variable.ttf"; CallTTFont "Variable.ttf";
               CallGetFvar variable_font;
               CallInstantiate variable_font
                 (build_axis_limits (default [] (font_axes variable_font))
                    700 false);
               CallSave instance_font "out.ttf"; CallClose instance_font;
               CallClose variable_font; CallGetsize "out.ttf"]) as ->
      by (by vm_compute).
    rewrite !elem_of_cons. tauto.
  - simpl in Hold. by apply elem_of_nil in Hold.
  - exact Hnew.
Defined.

End MoreSampleRuns.
